(** * SPDX presenter of syft: a shallow embedding and its properties

  Source: [internal/presenter/packages/spdx_presenter.go].

  The presenter turns a package catalog and the metadata of the scanned
  source into an SPDX 2.2 document and hands it to the tag-value saver.
  Go maps are modelled as [gmap]s keyed by the element identifier, the
  catalog enumeration as the list of packages in the order the channel
  yields them, the logger as a list of entries threaded through the loop,
  and the collaborators outside this file (license lookup, build
  information, clock, tag-value saver) as section variables. *)

From Stdlib Require Import Strings.Ascii.
From stdpp Require Import base option list strings pretty gmap fin_maps.

Local Open Scope string_scope.
Local Open Scope list_scope.
Local Open Scope nat_scope.

(** ** Go's [error] values *)

Inductive error : Type :=
| errorString (msg : string).

(** A Go result pair [(T, error)]: a value, or a non-nil error. *)
Inductive result (A : Type) : Type :=
| Ok (a : A)
| Err (e : error).
Arguments Ok {A} a.
Arguments Err {A} e.

(** ** Package [pkg]: the catalogued packages *)

Module pkg.

(** Modelled from the spec: the package type tag, Go's named string type
    [pkg.Type] ([Type] is reserved here, hence the underscore). *)
Definition Type_ : Type := string.

(** Modelled from the spec: the opaque metadata payload of a package.
    The presenter only probes it for the [FileOwner] interface, whose
    single method [OwnedFiles] lists the paths the package installed. *)
Inductive Metadata : Type :=
  | NoMetadata
  | PlainMetadata (payload : string)
  | FileOwnerMetadata (owned : list string).

Record FileOwner : Type := { OwnedFiles : list string }.

(** The type assertion [p.Metadata.(pkg.FileOwner)]. *)
Definition asFileOwner (m : Metadata) : option FileOwner :=
  match m with
  | FileOwnerMetadata owned => Some {| OwnedFiles := owned |}
  | _ => None
  end.

(** Modelled from the spec: a package, with the fields the presenter
    reads; [PkgType] is the field [Type] and [Metadata_] the field
    [Metadata]. *)
Record Package : Type := {
  Name : string;
  Version : string;
  Licenses : list string;
  PkgType : Type_;
  Metadata_ : Metadata
}.

(** Modelled from the spec: the catalog, known here through the finite
    sequence its enumerator yields. *)
Record Catalog : Type := { Enumerate : list Package }.

End pkg.

(** ** Package [source]: what was scanned *)

Module source.

(** Modelled from the spec: the metadata of a scanned image, with the
    user-supplied string that names it. *)
Record ImageMetadata_ : Type := { UserInput : string }.

(** Modelled from the spec: the source metadata, of which the presenter
    reads [ImageMetadata.UserInput]. *)
Record Metadata : Type := { ImageMetadata : ImageMetadata_ }.

End source.

(** ** Package [spdxLicense]: the license list client *)

Module spdxLicense.

Record LicenseInfo : Type := {
  ID : string;
  LicenseName : string;
  Deprecated : bool;
  OSIApproved : bool
}.

End spdxLicense.

(** ** Package [version]: build information *)

Module version.

(** Modelled from the spec: the build information, of which the presenter
    reads the version string. *)
Record Version_ : Type := { Version : string }.

End version.

(** ** Package [spdx]: the SPDX 2.2 document model *)

Module spdx.

Abbreviation ElementID := string (only parsing).

Record ArtifactOfProject2_2 : Type := {
  ArtifactName : string;
  ArtifactHomePage : string;
  ArtifactURI : string
}.

Record Snippet2_2 : Type := {
  SnippetSPDXIdentifier : ElementID;
  SnippetName : string
}.

Record File2_2 : Type := {
  FileName : string;
  FileSPDXIdentifier : ElementID;
  FileType : list string;
  FileChecksumSHA1 : string;
  FileChecksumSHA256 : string;
  FileChecksumMD5 : string;
  LicenseConcluded : string;
  LicenseInfoInFile : list string;
  LicenseComments : string;
  FileCopyrightText : string;
  ArtifactOfProjects : list ArtifactOfProject2_2;
  FileComment : string;
  FileNotice : string;
  FileContributor : list string;
  FileAttributionTexts : list string;
  FileDependencies : list string;
  Snippets : gmap string Snippet2_2
}.

Record PackageExternalReference2_2 : Type := {
  Category : string;
  RefType : string;
  Locator : string;
  ExternalRefComment : string
}.

Record Package2_2 : Type := {
  IsUnpackaged : bool;
  PackageName : string;
  PackageSPDXIdentifier : ElementID;
  PackageVersion : string;
  PackageFileName : string;
  PackageSupplierPerson : string;
  PackageSupplierOrganization : string;
  PackageSupplierNOASSERTION : bool;
  PackageOriginatorPerson : string;
  PackageOriginatorOrganization : string;
  PackageOriginatorNOASSERTION : bool;
  PackageDownloadLocation : string;
  FilesAnalyzed : bool;
  IsFilesAnalyzedTagPresent : bool;
  PackageVerificationCode : string;
  PackageVerificationCodeExcludedFile : string;
  PackageChecksumSHA1 : string;
  PackageChecksumSHA256 : string;
  PackageChecksumMD5 : string;
  PackageHomePage : string;
  PackageSourceInfo : string;
  PackageLicenseConcluded : string;
  PackageLicenseInfoFromFiles : list string;
  PackageLicenseDeclared : string;
  PackageLicenseComments : string;
  PackageCopyrightText : string;
  PackageSummary : string;
  PackageDescription : string;
  PackageComment : string;
  PackageExternalReferences : list PackageExternalReference2_2;
  PackageAttributionTexts : list string;
  Files : gmap string File2_2
}.

Record ExternalDocumentRef2_2 : Type := {
  DocumentRefID : string;
  URI : string;
  Alg : string;
  Checksum : string
}.

Record CreationInfo2_2 : Type := {
  SPDXVersion : string;
  DataLicense : string;
  SPDXIdentifier : ElementID;
  DocumentName : string;
  DocumentNamespace : string;
  ExternalDocumentReferences : gmap string ExternalDocumentRef2_2;
  LicenseListVersion : string;
  CreatorPersons : list string;
  CreatorOrganizations : list string;
  CreatorTools : list string;
  Created : string;
  CreatorComment : string;
  DocumentComment : string
}.

(** Only the two fields the presenter populates; the others keep their
    zero value and are left out. *)
Record Document2_2 : Type := {
  CreationInfo : CreationInfo2_2;
  Packages : gmap string Package2_2
}.

(** The document with its creation timestamp replaced. *)
Definition withCreated (t : string) (doc : Document2_2) : Document2_2 :=
  let ci := CreationInfo doc in
  {| CreationInfo :=
       {| SPDXVersion := SPDXVersion ci;
          DataLicense := DataLicense ci;
          SPDXIdentifier := SPDXIdentifier ci;
          DocumentName := DocumentName ci;
          DocumentNamespace := DocumentNamespace ci;
          ExternalDocumentReferences := ExternalDocumentReferences ci;
          LicenseListVersion := LicenseListVersion ci;
          CreatorPersons := CreatorPersons ci;
          CreatorOrganizations := CreatorOrganizations ci;
          CreatorTools := CreatorTools ci;
          Created := t;
          CreatorComment := CreatorComment ci;
          DocumentComment := DocumentComment ci |};
     Packages := Packages doc |}.

End spdx.

(** ** Package [log] *)

Module log.

(** One call of [log.Warnf]: the format string and its two arguments. *)
Record Entry : Type := Warnf {
  format : string;
  package : pkg.Package;
  cause : error
}.

End log.

(** ** Package [time] *)

Module time.

Definition RFC3339 : string := "2006-01-02T15:04:05Z07:00".

End time.

(** ** The presenter *)

Record SPDXPresenter : Type := {
catalog : pkg.Catalog;
srcMetadata : source.Metadata
}.

Definition NewSPDXPresenter (catalog : pkg.Catalog) (srcMetadata : source.Metadata)
: SPDXPresenter :=
{| catalog := catalog; srcMetadata := srcMetadata |}.

(** The file record built for one owned path [f] (body of the loop of
  [packageFiles]). *)
Definition file2_2 (f : string) : spdx.File2_2 :=
{| spdx.FileName := f;
   spdx.FileSPDXIdentifier := f;
   spdx.FileType := [];
   spdx.FileChecksumSHA1 := "";
   spdx.FileChecksumSHA256 := "";
   spdx.FileChecksumMD5 := "";
   spdx.LicenseConcluded := "NOASSERTION";
   spdx.LicenseInfoInFile := ["NOASSERTION"];
   spdx.LicenseComments := "";
   spdx.FileCopyrightText := "NOASSERTION";
   spdx.ArtifactOfProjects := [];
   spdx.FileComment := "";
   spdx.FileNotice := "";
   spdx.FileContributor := [];
   spdx.FileAttributionTexts := [];
   spdx.FileDependencies := [];
   spdx.Snippets := ∅ |}.

(** [files[id] = &spdx.File2_2{...}] for one path, with [id = ElementID(f)]. *)
Definition addFile (files : gmap string spdx.File2_2) (f : string)
: gmap string spdx.File2_2 :=
<[f := file2_2 f]> files.

(** [packageFiles]: the [FilesAnalyzed] flag and the file records of [p]. *)
Definition packageFiles (p : pkg.Package) : bool * gmap string spdx.File2_2 :=
match pkg.asFileOwner (pkg.Metadata_ p) with
| Some owner => (true, foldl addFile ∅ (pkg.OwnedFiles owner))
| None => (false, ∅)
end.

(** [fmt.Sprintf("Package-%+v-%s", p.Type, p.Name)]. *)
Definition packageID (p : pkg.Package) : string :=
"Package-" +:+ pkg.PkgType p +:+ "-" +:+ pkg.Name p.

(** ** Lists with a repeated element *)

Section RepeatedElements.

Context {A : Type} `{EqDecision A}.

Lemma remove_dups_length_le (l : list A) : length (remove_dups l) ≤ length l.
Proof.
  induction l as [|x l IH]; [done|]. cbn [remove_dups].
  destruct (decide_rel (∈) x l); cbn [length]; lia.
Qed.

Lemma remove_dups_shorter (l : list A) :
  ¬ NoDup l → length (remove_dups l) < length l.
Proof.
  induction l as [|x l IH]; intros Hdup.
  - destruct Hdup. constructor.
  - cbn [remove_dups]. destruct (decide_rel (∈) x l) as [Hin|Hin]; cbn [length].
    + pose proof (remove_dups_length_le l). lia.
    + apply Nat.succ_lt_mono in IH; [done|].
      intros Hl. apply Hdup. by constructor.
Qed.

Lemma twice_not_NoDup (l1 l2 l3 : list A) (x : A) :
  ¬ NoDup (l1 ++ x :: l2 ++ x :: l3).
Proof.
  rewrite NoDup_app, NoDup_cons. intros (_ & _ & Hx & _).
  apply Hx, elem_of_app. right. by left.
Qed.

End RepeatedElements.

(** ** Lists without a repeated element *)

Section DistinctElements.

Context {A : Type} `{EqDecision A}.

Lemma remove_dups_NoDup_id (l : list A) : NoDup l → remove_dups l = l.
Proof.
  induction 1 as [|x l Hx Hl IH]; [done|]. cbn [remove_dups].
  destruct (decide_rel (∈) x l); [done|]. by rewrite IH.
Qed.

Lemma remove_dups_length_NoDup (l : list A) :
  length (remove_dups l) = length l ↔ NoDup l.
Proof.
  split.
  - intros Hlen. destruct (decide (NoDup l)) as [|Hdup]; [done|].
    apply remove_dups_shorter in Hdup. lia.
  - intros Hl. by rewrite remove_dups_NoDup_id.
Qed.

End DistinctElements.

(** ** Strings and hyphens *)

(** [hyphenFree s]: the character '-' does not occur in [s]. *)
Fixpoint hyphenFree (s : string) : bool :=
  match s with
  | EmptyString => true
  | String a s' => if Ascii.eqb a "-"%char then false else hyphenFree s'
  end.

Lemma append_cons (a : ascii) (s1 s2 : string) :
  String a s1 +:+ s2 = String a (s1 +:+ s2).
Proof. reflexivity. Qed.

Lemma append_nil (s : string) : "" +:+ s = s.
Proof. reflexivity. Qed.

Lemma append_assoc (s1 s2 s3 : string) :
  (s1 +:+ s2) +:+ s3 = s1 +:+ (s2 +:+ s3).
Proof.
  induction s1 as [|a s1 IH]; [done|]. by rewrite !append_cons, IH.
Qed.

Lemma length_append (s1 s2 : string) :
  String.length (s1 +:+ s2) = String.length s1 + String.length s2.
Proof.
  induction s1 as [|a s1 IH]; [done|].
  rewrite append_cons. cbn [String.length]. by rewrite IH.
Qed.

Lemma hyphen_split_unique (t1 t2 n1 n2 : string) :
  hyphenFree t1 = true → hyphenFree t2 = true →
  t1 +:+ "-" +:+ n1 = t2 +:+ "-" +:+ n2 → t1 = t2 ∧ n1 = n2.
Proof.
  revert t2. induction t1 as [|a t1 IH]; intros [|b t2] H1 H2 Heq;
    rewrite ?append_cons, ?append_nil in Heq; cbn [hyphenFree] in *.
  - by injection Heq as ->.
  - injection Heq as <- _. by rewrite Ascii.eqb_refl in H2.
  - injection Heq as -> _. by rewrite Ascii.eqb_refl in H1.
  - injection Heq as -> Heq.
    destruct (Ascii.eqb b "-"%char); [done|].
    by destruct (IH t2 H1 H2 Heq) as [-> ->].
Qed.

(** ** Sample inputs

  The scenarios of the presenter's description, used below to run the
  definitions on concrete catalogs. *)

Module Samples.

(** A license list that knows MIT and Apache-2.0 (under two spellings). *)
Definition License (id : string) : result spdxLicense.LicenseInfo :=
  if decide (id = "MIT") then
    Ok {| spdxLicense.ID := "MIT"; spdxLicense.LicenseName := "MIT License";
          spdxLicense.Deprecated := false; spdxLicense.OSIApproved := true |}
  else if decide (id = "Apache-2.0" ∨ id = "apache-2.0") then
    Ok {| spdxLicense.ID := "Apache-2.0";
          spdxLicense.LicenseName := "Apache License 2.0";
          spdxLicense.Deprecated := false; spdxLicense.OSIApproved := true |}
  else Err (errorString "license not found").

Definition ApplicationName : string := "syft".
Definition FromBuild : version.Version_ := {| version.Version := "0.15.1" |}.

(** Clock readings are seconds since midnight; [Format] prints them as a
    time of day on a fixed date, whatever the layout. *)
Definition twoDigits (n : nat) : string :=
  pretty (n / 10) +:+ pretty (n mod 10).

Definition Format (t : nat) (layout : string) : string :=
  "2021-03-01T" +:+ twoDigits (t / 3600) +:+ ":" +:+ twoDigits (t / 60 mod 60)
    +:+ ":" +:+ twoDigits (t mod 60) +:+ "Z".

(** A sink keeps the documents saved to it; saving fails on a closed sink. *)
Inductive Writer : Type :=
  | OpenSink (saved : list spdx.Document2_2)
  | ClosedSink.

Definition Save2_2 (doc : spdx.Document2_2) (w : Writer) : Writer * option error :=
  match w with
  | OpenSink saved => (OpenSink (saved ++ [doc]), None)
  | ClosedSink => (ClosedSink, Some (errorString "write on closed sink"))
  end.

Definition curl : pkg.Package :=
  {| pkg.Name := "curl"; pkg.Version := "7.68"; pkg.Licenses := [];
     pkg.PkgType := "deb"; pkg.Metadata_ := pkg.NoMetadata |}.

Definition curlMIT : pkg.Package :=
  {| pkg.Name := "curl"; pkg.Version := "7.68"; pkg.Licenses := ["MIT"; "curl"];
     pkg.PkgType := "deb"; pkg.Metadata_ := pkg.PlainMetadata "dpkg status" |}.

Definition curlBogus : pkg.Package :=
  {| pkg.Name := "curl"; pkg.Version := "7.69";
     pkg.Licenses := ["totally-bogus-license"; "MIT"];
     pkg.PkgType := "deb"; pkg.Metadata_ := pkg.NoMetadata |}.

Definition curlFiles : pkg.Package :=
  {| pkg.Name := "curl"; pkg.Version := "7.68"; pkg.Licenses := ["apache-2.0"];
     pkg.PkgType := "rpm";
     pkg.Metadata_ := pkg.FileOwnerMetadata ["/usr/bin/curl"; "/etc/curl.conf"] |}.

Definition twice : pkg.Package :=
  {| pkg.Name := "twice"; pkg.Version := "1.0"; pkg.Licenses := [];
     pkg.PkgType := "python";
     pkg.Metadata_ := pkg.FileOwnerMetadata ["/a.py"; "/b.py"; "/a.py"] |}.

Definition noFiles : pkg.Package :=
  {| pkg.Name := "empty"; pkg.Version := "0"; pkg.Licenses := ["MIT"];
     pkg.PkgType := "gem"; pkg.Metadata_ := pkg.FileOwnerMetadata [] |}.

Definition srcMetadata : source.Metadata :=
  {| source.ImageMetadata := {| source.UserInput := "alpine:latest" |} |}.

Definition pres : SPDXPresenter :=
  NewSPDXPresenter
    {| pkg.Enumerate := [curlMIT; curlFiles; curlBogus; twice; noFiles] |}
    srcMetadata.

Definition emptyPres : SPDXPresenter :=
  NewSPDXPresenter {| pkg.Enumerate := [] |} srcMetadata.

(** One catalog content under two enumeration orders. *)
Definition presForward : SPDXPresenter :=
  NewSPDXPresenter {| pkg.Enumerate := [curlMIT; curlBogus] |} srcMetadata.

Definition presBackward : SPDXPresenter :=
  NewSPDXPresenter {| pkg.Enumerate := [curlBogus; curlMIT] |} srcMetadata.

(** The catalog of [pres] in two parts. *)
Definition presHead : SPDXPresenter :=
  NewSPDXPresenter {| pkg.Enumerate := [curlMIT; curlFiles] |} srcMetadata.

Definition presTail : SPDXPresenter :=
  NewSPDXPresenter {| pkg.Enumerate := [curlBogus; twice; noFiles] |} srcMetadata.

(** A catalog without colliding identifiers, under two enumeration orders. *)
Definition presDistinct : SPDXPresenter :=
  NewSPDXPresenter {| pkg.Enumerate := [curlBogus; curlFiles; twice] |} srcMetadata.

Definition presDistinctShuffled : SPDXPresenter :=
  NewSPDXPresenter {| pkg.Enumerate := [twice; curlBogus; curlFiles] |} srcMetadata.

(** The paths of [twice], each listed once and in another order. *)
Definition once : pkg.Package :=
  {| pkg.Name := "once"; pkg.Version := "2.0"; pkg.Licenses := ["MIT"];
     pkg.PkgType := "python";
     pkg.Metadata_ := pkg.FileOwnerMetadata ["/b.py"; "/a.py"] |}.

(** Two packages that differ in type and name and share an identifier. *)
Definition archiveFoo : pkg.Package :=
  {| pkg.Name := "foo"; pkg.Version := "1.2"; pkg.Licenses := [];
     pkg.PkgType := "java-archive"; pkg.Metadata_ := pkg.NoMetadata |}.

Definition javaArchiveFoo : pkg.Package :=
  {| pkg.Name := "archive-foo"; pkg.Version := "3.4"; pkg.Licenses := [];
     pkg.PkgType := "java"; pkg.Metadata_ := pkg.NoMetadata |}.

End Samples.

Section Presenter.

(** [spdxLicense.License]: the license list lookup. *)
Variable License : string → result spdxLicense.LicenseInfo.

(** [internal.ApplicationName] and [version.FromBuild()]. *)
Variable ApplicationName : string.
Variable FromBuild : version.Version_.

(** [time.Time] values and [Time.Format]. *)
Variable Time : Type.
Variable Format : Time → string → string.

(** [io.Writer] and [tvsaver.Save2_2]: the saver writes the document to
    the sink and returns [nil] ([None]) or an error. *)
Variable Writer : Type.
Variable Save2_2 : spdx.Document2_2 → Writer → Writer * option error.

(** The declared license of [p], with the warnings logged on the way. *)
Definition packageLicense (p : pkg.Package) : string * list log.Entry :=
  match pkg.Licenses p with
  | [] => ("NONE", [])
  | l0 :: _ =>
      match License l0 with
      | Err err =>
          ("NOASSERTION",
           [log.Warnf "unable to parse SPDX license for package=%+v : %+v" p err])
      | Ok licenseInfo => (spdxLicense.ID licenseInfo, [])
      end
  end.

(** The package record stored for [p], given its identifier, declared
    license and file projection. *)
Definition package2_2 (p : pkg.Package) (id license : string)
    (filesAnalyzed : bool) (files : gmap string spdx.File2_2) : spdx.Package2_2 :=
  {| spdx.IsUnpackaged := false;
     spdx.PackageName := pkg.Name p;
     spdx.PackageSPDXIdentifier := id;
     spdx.PackageVersion := pkg.Version p;
     spdx.PackageFileName := "";
     spdx.PackageSupplierPerson := "";
     spdx.PackageSupplierOrganization := "";
     spdx.PackageSupplierNOASSERTION := false;
     spdx.PackageOriginatorPerson := "";
     spdx.PackageOriginatorOrganization := "";
     spdx.PackageOriginatorNOASSERTION := false;
     spdx.PackageDownloadLocation := "NOASSERTION";
     spdx.FilesAnalyzed := filesAnalyzed;
     spdx.IsFilesAnalyzedTagPresent := true;
     spdx.PackageVerificationCode := "";
     spdx.PackageVerificationCodeExcludedFile := "";
     spdx.PackageChecksumSHA1 := "";
     spdx.PackageChecksumSHA256 := "";
     spdx.PackageChecksumMD5 := "";
     spdx.PackageHomePage := "";
     spdx.PackageSourceInfo := "";
     spdx.PackageLicenseConcluded := "NOASSERTION";
     spdx.PackageLicenseInfoFromFiles := [];
     spdx.PackageLicenseDeclared := license;
     spdx.PackageLicenseComments := "";
     spdx.PackageCopyrightText := "NOASSERTION";
     spdx.PackageSummary := "";
     spdx.PackageDescription := "";
     spdx.PackageComment := "";
     spdx.PackageExternalReferences := [];
     spdx.PackageAttributionTexts := [];
     spdx.Files := files |}.

(** The record one iteration of the loop of [packages] builds for [p]. *)
Definition packageRecord (p : pkg.Package) : spdx.Package2_2 :=
  let id := packageID p in
  let license := (packageLicense p).1 in
  let '(filesAnalyzed, files) := packageFiles p in
  package2_2 p id license filesAnalyzed files.

(** One iteration of the loop of [packages]: the results map and the log
    before, and after. *)
Definition packagesStep (st : gmap string spdx.Package2_2 * list log.Entry)
    (p : pkg.Package) : gmap string spdx.Package2_2 * list log.Entry :=
  let '(results, logged) := st in
  let id := packageID p in
  let '(license, warnings) := packageLicense p in
  let '(filesAnalyzed, files) := packageFiles p in
  (<[id := package2_2 p id license filesAnalyzed files]> results,
   logged ++ warnings).

(** [packages]: all package records of the catalog, and what was logged. *)
Definition packages (pres : SPDXPresenter)
  : gmap string spdx.Package2_2 * list log.Entry :=
  foldl packagesStep (∅, []) (pkg.Enumerate (catalog pres)).

(** The document [Present] assembles when the clock reads [now]. *)
Definition document (pres : SPDXPresenter) (now : Time) : spdx.Document2_2 :=
  let userInput := source.UserInput (source.ImageMetadata (srcMetadata pres)) in
  {| spdx.CreationInfo :=
       {| spdx.SPDXVersion := "SPDX-2.2";
          spdx.DataLicense := "CC0-1.0";
          spdx.SPDXIdentifier := "DOCUMENT";
          spdx.DocumentName := userInput;
          spdx.DocumentNamespace := "https://anchore.com/syft/image/" +:+ userInput;
          spdx.ExternalDocumentReferences := ∅;
          spdx.LicenseListVersion := "";
          spdx.CreatorPersons := [];
          spdx.CreatorOrganizations := ["Anchore, Inc"];
          spdx.CreatorTools :=
            [ApplicationName +:+ "-" +:+ version.Version FromBuild];
          spdx.Created := Format now time.RFC3339;
          spdx.CreatorComment := "";
          spdx.DocumentComment := "" |};
     spdx.Packages := (packages pres).1 |}.

(** What a call of [Present] leaves behind: the sink, the log, and the
    returned error ([None] is Go's [nil]). *)
Record Outcome : Type := {
  sink : Writer;
  logged : list log.Entry;
  returned : option error
}.

(** [Present]: assemble the document and save it to [output]. *)
Definition Present (pres : SPDXPresenter) (now : Time) (output : Writer) : Outcome :=
  let doc := document pres now in
  let '(output', err) := Save2_2 doc output in
  {| sink := output'; logged := (packages pres).2; returned := err |}.

(** *** Notions used in the statements *)

(** The last package of [l] whose identifier is [i]. *)
Definition lastWithID (i : string) (l : list pkg.Package) : option pkg.Package :=
  last (filter (λ p, packageID p = i) l).

(** The three outcomes of the declared-license classification of [p]. *)
Definition classifiedAs (p : pkg.Package) (declared : string) : Prop :=
  (pkg.Licenses p = [] ∧ declared = "NONE")
  ∨ (∃ l0 rest info,
       pkg.Licenses p = l0 :: rest ∧ License l0 = Ok info
       ∧ declared = spdxLicense.ID info)
  ∨ (∃ l0 rest err,
       pkg.Licenses p = l0 :: rest ∧ License l0 = Err err
       ∧ declared = "NOASSERTION").

(** ** Properties *)

(** *** The file projection *)

Lemma addFiles_lookup (owned : list string) (files : gmap string spdx.File2_2)
    (f : string) :
  foldl addFile files owned !! f =
    if decide (f ∈ owned) then Some (file2_2 f) else files !! f.
Proof.
  revert files. induction owned as [|g owned IH]; intros files.
  - destruct (decide (f ∈ [])) as [Hin|_]; [by apply elem_of_nil in Hin | done].
  - change (foldl addFile files (g :: owned))
      with (foldl addFile (addFile files g) owned).
    rewrite IH. unfold addFile.
    destruct (decide (f ∈ owned)) as [Hin|Hin];
      destruct (decide (f ∈ g :: owned)) as [Hin'|Hin']; try done.
    + exfalso. apply Hin'. by right.
    + apply elem_of_cons in Hin' as [->|?]; [|done].
      by rewrite lookup_insert_eq.
    + apply lookup_insert_ne. intros ->. apply Hin'. by left.
Qed.

Lemma addFiles_dom (owned : list string) :
  dom (foldl addFile ∅ owned) = (list_to_set owned : gset string).
Proof.
  apply set_eq. intros f. rewrite elem_of_dom, addFiles_lookup, elem_of_list_to_set.
  destruct (decide (f ∈ owned)) as [Hin|Hin]; split; intros H'; try done.
  rewrite lookup_empty in H'. by destruct H' as [? ?].
Qed.

Lemma addFiles_distinct (owned : list string) :
  size (foldl addFile ∅ owned) = length (remove_dups owned).
Proof.
  rewrite <-size_dom, addFiles_dom.
  replace (list_to_set owned : gset string) with
    (list_to_set (remove_dups owned) : gset string).
  - apply size_list_to_set, NoDup_remove_dups.
  - apply set_eq. intros f.
    by rewrite !elem_of_list_to_set, elem_of_remove_dups.
Qed.

(** *** The loop of [packages] *)

Lemma packagesStep_record (results : gmap string spdx.Package2_2)
    (lg : list log.Entry) (p : pkg.Package) :
  packagesStep (results, lg) p =
    (<[packageID p := packageRecord p]> results, lg ++ (packageLicense p).2).
Proof.
  unfold packagesStep, packageRecord.
  destruct (packageLicense p) as [license warnings].
  by destruct (packageFiles p) as [filesAnalyzed files].
Qed.

Lemma packagesLoop_lookup (l : list pkg.Package)
    (results : gmap string spdx.Package2_2) (lg : list log.Entry) (i : string) :
  (foldl packagesStep (results, lg) l).1 !! i =
    match lastWithID i l with
    | Some p => Some (packageRecord p)
    | None => results !! i
    end.
Proof.
  unfold lastWithID. induction l as [|p l IH] using rev_ind; [done|].
  rewrite foldl_snoc, filter_app.
  destruct (foldl packagesStep (results, lg) l) as [m lg'] eqn:Hfold.
  rewrite packagesStep_record. simpl in *.
  rewrite filter_cons, filter_nil.
  case_decide as Hid.
  - subst i. by rewrite last_snoc, lookup_insert_eq.
  - rewrite app_nil_r, lookup_insert_ne by done. apply IH.
Qed.

Lemma packagesLoop_logged (l : list pkg.Package)
    (results : gmap string spdx.Package2_2) (lg : list log.Entry) :
  (foldl packagesStep (results, lg) l).2 =
    lg ++ concat (map (λ p, (packageLicense p).2) l).
Proof.
  revert results lg. induction l as [|p l IH]; intros results lg; cbn [foldl map concat].
  - by rewrite app_nil_r.
  - rewrite packagesStep_record, IH. cbn [snd]. by rewrite <-(assoc_L (++)).
Qed.

Lemma lastWithID_Some (i : string) (l : list pkg.Package) (p : pkg.Package) :
  lastWithID i l = Some p → p ∈ l ∧ packageID p = i.
Proof.
  unfold lastWithID. intros Hlast.
  apply last_Some_elem_of in Hlast.
  by apply list_elem_of_filter in Hlast as [? ?].
Qed.

Lemma lastWithID_elem_of (l : list pkg.Package) (p : pkg.Package) :
  p ∈ l → is_Some (lastWithID (packageID p) l).
Proof.
  unfold lastWithID. intros Hin.
  assert (p ∈ filter (λ q, packageID q = packageID p) l) as Hf
    by by apply list_elem_of_filter.
  destruct (filter _ l) as [|q k] using rev_ind.
  - by apply elem_of_nil in Hf.
  - rewrite last_snoc. by eexists.
Qed.

Lemma lastWithID_final (l1 l2 : list pkg.Package) (q : pkg.Package) :
  (∀ r, r ∈ l2 → packageID r ≠ packageID q) →
  lastWithID (packageID q) (l1 ++ q :: l2) = Some q.
Proof.
  unfold lastWithID. intros Hlater.
  rewrite filter_app, filter_cons. case_decide; [|done].
  replace (filter (λ p, packageID p = packageID q) l2) with (@nil pkg.Package).
  - by rewrite last_snoc.
  - symmetry. induction l2 as [|r l2 IH]; [done|].
    rewrite filter_cons. case_decide as Hr.
    + exfalso. eapply Hlater; [|exact Hr]. by left.
    + apply IH. intros r' Hr'. apply Hlater. by right.
Qed.

Lemma packages_lookup (pres : SPDXPresenter) (i : string) :
  (packages pres).1 !! i =
    packageRecord <$> lastWithID i (pkg.Enumerate (catalog pres)).
Proof.
  unfold packages. rewrite packagesLoop_lookup.
  by destruct (lastWithID i _).
Qed.

Lemma packageRecord_declared (p : pkg.Package) :
  spdx.PackageLicenseDeclared (packageRecord p) = (packageLicense p).1.
Proof. unfold packageRecord. by destruct (packageFiles p). Qed.

Lemma packageRecord_files (p : pkg.Package) :
  spdx.FilesAnalyzed (packageRecord p) = (packageFiles p).1 ∧
  spdx.Files (packageRecord p) = (packageFiles p).2.
Proof. unfold packageRecord. by destruct (packageFiles p). Qed.

(** *** The declared license *)

Lemma packageLicense_classified (p : pkg.Package) :
  classifiedAs p (packageLicense p).1.
Proof.
  unfold classifiedAs, packageLicense.
  destruct (pkg.Licenses p) as [|l0 rest]; [by left|].
  destruct (License l0) as [info|err] eqn:Hlookup; right; [left|right]; eauto 6.
Qed.

Lemma classifiedAs_unique (p : pkg.Package) (d1 d2 : string) :
  classifiedAs p d1 → classifiedAs p d2 → d1 = d2.
Proof.
  unfold classifiedAs.
  intros [[H1 ->]|[(l1 & r1 & i1 & H1 & L1 & ->)|(l1 & r1 & e1 & H1 & L1 & ->)]]
         [[H2 ->]|[(l2 & r2 & i2 & H2 & L2 & ->)|(l2 & r2 & e2 & H2 & L2 & ->)]];
    try done; rewrite H1 in H2; try done;
    injection H2 as <- <-; rewrite L1 in L2; try done.
  by injection L2 as <-.
Qed.

(** C1. For every package the catalog enumerates, the declared license of
    the record built for it is "NONE" when the package has no license
    string, and otherwise depends on the first license string only: the
    identifier the lookup returns for it, or "NOASSERTION" when the lookup
    fails. These cases exclude one another, so the outcome is the only one
    that fits the package. The record the output map holds under the
    package's identifier is the record of an enumerated package, classified
    the same way. *)
Theorem declared_license_three_way (pres : SPDXPresenter) (p : pkg.Package)
    (Hp : p ∈ pkg.Enumerate (catalog pres)) :
  classifiedAs p (spdx.PackageLicenseDeclared (packageRecord p))
  ∧ (∀ declared, classifiedAs p declared
       → declared = spdx.PackageLicenseDeclared (packageRecord p))
  ∧ ∃ q, q ∈ pkg.Enumerate (catalog pres)
      ∧ (packages pres).1 !! packageID p = Some (packageRecord q)
      ∧ classifiedAs q (spdx.PackageLicenseDeclared (packageRecord q)).
Proof.
  split; [|split].
  - rewrite packageRecord_declared. apply packageLicense_classified.
  - intros declared Hd. apply (classifiedAs_unique p); [done|].
    rewrite packageRecord_declared. apply packageLicense_classified.
  - destruct (lastWithID_elem_of _ _ Hp) as [q Hq].
    exists q. rewrite packages_lookup, Hq.
    apply lastWithID_Some in Hq as [Hin _].
    repeat split; [done|].
    rewrite packageRecord_declared. apply packageLicense_classified.
Qed.

(** *** File ownership *)

(** C2. The record of a package has [FilesAnalyzed = true] exactly when
    the metadata of the package is a file owner. Without ownership the
    record has no file record. With ownership the identifiers of its file
    records are exactly the owned paths, so there is one file record for
    each owned path, and none when no path is owned. *)
Theorem files_analyzed_iff_file_owner (p : pkg.Package) :
  (spdx.FilesAnalyzed (packageRecord p) = true
     ↔ is_Some (pkg.asFileOwner (pkg.Metadata_ p)))
  ∧ (spdx.FilesAnalyzed (packageRecord p) = false
     → spdx.Files (packageRecord p) = ∅)
  ∧ match pkg.asFileOwner (pkg.Metadata_ p) with
    | Some owner =>
        spdx.FilesAnalyzed (packageRecord p) = true
        ∧ dom (spdx.Files (packageRecord p))
            = (list_to_set (pkg.OwnedFiles owner) : gset string)
        ∧ (∀ f, f ∈ pkg.OwnedFiles owner
              → spdx.Files (packageRecord p) !! f = Some (file2_2 f))
        ∧ size (spdx.Files (packageRecord p))
            = length (remove_dups (pkg.OwnedFiles owner))
    | None =>
        spdx.FilesAnalyzed (packageRecord p) = false
        ∧ spdx.Files (packageRecord p) = ∅
    end.
Proof.
  destruct (packageRecord_files p) as [-> ->]. unfold packageFiles.
  destruct (pkg.asFileOwner (pkg.Metadata_ p)) as [owner|]; cbn [fst snd].
  - split; [split; eauto|]. split; [done|]. split; [done|].
    split; [apply addFiles_dom|]. split.
    + intros f Hf. rewrite addFiles_lookup. by rewrite decide_True.
    + apply addFiles_distinct.
  - split; [split; [done|by intros [? ?]]|]. done.
Qed.

(** *** Errors *)

(** C3. The error [Present] returns is the one the saver returns for the
    assembled document: [Present] fails exactly when the save fails.
    Whatever the license lookup answers, every enumerated package has a
    record in the document; a package whose first license does not
    resolve gets "NOASSERTION" as declared license and one warning in the
    log. *)
Theorem present_fails_only_on_save (pres : SPDXPresenter) (now : Time)
    (output : Writer) :
  returned (Present pres now output) = (Save2_2 (document pres now) output).2
  ∧ (is_Some (returned (Present pres now output))
       ↔ is_Some (Save2_2 (document pres now) output).2)
  ∧ sink (Present pres now output) = (Save2_2 (document pres now) output).1
  ∧ (∀ p, p ∈ pkg.Enumerate (catalog pres)
        → is_Some (spdx.Packages (document pres now) !! packageID p))
  ∧ (∀ p l0 rest err,
        p ∈ pkg.Enumerate (catalog pres)
        → pkg.Licenses p = l0 :: rest
        → License l0 = Err err
        → spdx.PackageLicenseDeclared (packageRecord p) = "NOASSERTION"
          ∧ log.Warnf "unable to parse SPDX license for package=%+v : %+v" p err
              ∈ logged (Present pres now output)).
Proof.
  unfold Present.
  destruct (Save2_2 (document pres now) output) as [output' err] eqn:Hsave.
  cbn [returned sink logged fst snd]. do 3 (split; [done|]). split.
  - intros p Hp. cbn [document spdx.Packages]. rewrite packages_lookup.
    destruct (lastWithID_elem_of _ _ Hp) as [q ->]. by eexists.
  - intros p l0 rest err' Hp Hlic Hlookup.
    rewrite packageRecord_declared.
    assert (packageLicense p =
              ("NOASSERTION",
               [log.Warnf "unable to parse SPDX license for package=%+v : %+v" p err']))
      as Hpl by (unfold packageLicense; by rewrite Hlic, Hlookup).
    rewrite Hpl. split; [done|].
    unfold packages. rewrite packagesLoop_logged. cbn [app].
    apply list_elem_of_In, in_concat.
    exists (packageLicense p).2. split.
    + apply (in_map (λ q, (packageLicense q).2)). by apply list_elem_of_In.
    + rewrite Hpl. by left.
Qed.

(** *** File records *)

(** C4. For a package that is a file owner and a path [f] it owns, the
    record has a file record under the identifier [f], whose identifier
    and file name are [f] itself, whose concluded license and copyright
    text are "NOASSERTION", whose license-info-in-file is the one-element
    list of "NOASSERTION", and whose checksums and optional fields are
    empty. *)
Theorem file_record_fields (p : pkg.Package) (owner : pkg.FileOwner) (f : string)
    (Howner : pkg.asFileOwner (pkg.Metadata_ p) = Some owner)
    (Hf : f ∈ pkg.OwnedFiles owner) :
  ∃ r, spdx.Files (packageRecord p) !! f = Some r
    ∧ spdx.FileSPDXIdentifier r = f
    ∧ spdx.FileName r = f
    ∧ spdx.LicenseConcluded r = "NOASSERTION"
    ∧ spdx.LicenseInfoInFile r = ["NOASSERTION"]
    ∧ spdx.FileCopyrightText r = "NOASSERTION"
    ∧ spdx.FileChecksumSHA1 r = ""
    ∧ spdx.FileChecksumSHA256 r = ""
    ∧ spdx.FileChecksumMD5 r = ""
    ∧ spdx.FileType r = []
    ∧ spdx.LicenseComments r = ""
    ∧ spdx.ArtifactOfProjects r = []
    ∧ spdx.FileComment r = ""
    ∧ spdx.FileNotice r = ""
    ∧ spdx.FileContributor r = []
    ∧ spdx.FileAttributionTexts r = []
    ∧ spdx.FileDependencies r = []
    ∧ spdx.Snippets r = ∅.
Proof.
  exists (file2_2 f). split; [|by repeat split].
  destruct (packageRecord_files p) as [_ ->]. unfold packageFiles.
  rewrite Howner. cbn [snd]. rewrite addFiles_lookup. by rewrite decide_True.
Qed.

(** *** The document envelope *)

(** C5 (amended). The creator list of the envelope has no person, exactly
    one organization, the fixed literal "Anchore, Inc", and exactly one
    tool, whose text is the application name, a hyphen and the build-time
    version string, in this order. The list is therefore never empty. *)
Theorem creators_organization_and_tool (pres : SPDXPresenter) (now : Time) :
  let ci := spdx.CreationInfo (document pres now) in
  spdx.CreatorPersons ci = []
  ∧ spdx.CreatorOrganizations ci = ["Anchore, Inc"]
  ∧ spdx.CreatorTools ci = [ApplicationName +:+ "-" +:+ version.Version FromBuild]
  ∧ length (spdx.CreatorPersons ci ++ spdx.CreatorOrganizations ci
              ++ spdx.CreatorTools ci) = 2.
Proof. done. Qed.

(** *** Package identifiers and fixed fields *)

Lemma packageRecord_identifier (p : pkg.Package) :
  spdx.PackageSPDXIdentifier (packageRecord p) = packageID p.
Proof. unfold packageRecord. by destruct (packageFiles p). Qed.

(** C6. The identifier of a package record is "Package-", the type tag, a
    hyphen and the name of the package. Nothing else enters it: two
    packages of the same type and name get the same identifier, which is
    also the key of both in the output map. *)
Theorem package_identifier_type_name (p q : pkg.Package)
    (Htype : pkg.PkgType p = pkg.PkgType q) (Hname : pkg.Name p = pkg.Name q) :
  spdx.PackageSPDXIdentifier (packageRecord p)
    = "Package-" +:+ pkg.PkgType p +:+ "-" +:+ pkg.Name p
  ∧ spdx.PackageSPDXIdentifier (packageRecord q)
    = spdx.PackageSPDXIdentifier (packageRecord p)
  ∧ packageID q = packageID p.
Proof.
  rewrite !packageRecord_identifier. unfold packageID.
  by rewrite Htype, Hname.
Qed.

(** C7. Every package record has "NOASSERTION" as download location and
    as copyright text, an empty verification code, also when its files
    were analyzed, and empty SHA1, SHA256 and MD5 checksums. *)
Theorem package_sentinel_fields (p : pkg.Package) :
  spdx.PackageDownloadLocation (packageRecord p) = "NOASSERTION"
  ∧ spdx.PackageCopyrightText (packageRecord p) = "NOASSERTION"
  ∧ spdx.PackageVerificationCode (packageRecord p) = ""
  ∧ spdx.PackageChecksumSHA1 (packageRecord p) = ""
  ∧ spdx.PackageChecksumSHA256 (packageRecord p) = ""
  ∧ spdx.PackageChecksumMD5 (packageRecord p) = "".
Proof. unfold packageRecord. by destruct (packageFiles p). Qed.

(** *** Two runs *)

(** C8. Two runs on the same presenter, at clock readings [now1] and
    [now2], assemble documents that agree in every field but [Created]:
    putting the timestamp of the second into the first gives the second.
    Both runs log the same warnings. *)
Theorem two_runs_differ_in_created_only (pres : SPDXPresenter) (now1 now2 : Time) :
  spdx.withCreated (Format now2 time.RFC3339) (document pres now1)
    = document pres now2
  ∧ spdx.Packages (document pres now1) = spdx.Packages (document pres now2)
  ∧ spdx.Created (spdx.CreationInfo (document pres now1)) = Format now1 time.RFC3339
  ∧ spdx.Created (spdx.CreationInfo (document pres now2)) = Format now2 time.RFC3339
  ∧ ∀ output1 output2,
      logged (Present pres now1 output1) = logged (Present pres now2 output2).
Proof.
  repeat split. intros output1 output2. unfold Present.
  by destruct (Save2_2 _ output1), (Save2_2 _ output2).
Qed.

(** *** Concluded and declared license *)

(** C9. The concluded license of every package record is "NOASSERTION",
    whatever the licenses of the package and whatever the lookup answers;
    the outcome of the classification is stored in the declared license,
    and every record of the output map has "NOASSERTION" as concluded
    license. *)
Theorem concluded_license_noassertion (pres : SPDXPresenter) (p : pkg.Package) :
  spdx.PackageLicenseConcluded (packageRecord p) = "NOASSERTION"
  ∧ spdx.PackageLicenseDeclared (packageRecord p) = (packageLicense p).1
  ∧ classifiedAs p (spdx.PackageLicenseDeclared (packageRecord p))
  ∧ ∀ i r, (packages pres).1 !! i = Some r
      → spdx.PackageLicenseConcluded r = "NOASSERTION".
Proof.
  assert (∀ q, spdx.PackageLicenseConcluded (packageRecord q) = "NOASSERTION")
    as Hconcluded by (intros q; unfold packageRecord; by destruct (packageFiles q)).
  rewrite packageRecord_declared.
  split; [done|]. split; [done|]. split; [apply packageLicense_classified|].
  intros i r. rewrite packages_lookup.
  destruct (lastWithID i _) as [q|]; [|done].
  intros [= <-]. apply Hconcluded.
Qed.

(** *** One record per identifier *)

Lemma packages_dom (pres : SPDXPresenter) :
  dom (packages pres).1
    = (list_to_set (packageID <$> pkg.Enumerate (catalog pres)) : gset string).
Proof.
  apply set_eq. intros i.
  rewrite elem_of_dom, packages_lookup, elem_of_list_to_set, list_elem_of_fmap.
  split.
  - intros [r Hr]. destruct (lastWithID i _) as [p|] eqn:Hlast; [|done].
    apply lastWithID_Some in Hlast as [Hin Hid]. by exists p.
  - intros (p & -> & Hin).
    destruct (lastWithID_elem_of _ _ Hin) as [q ->]. by eexists.
Qed.

Lemma packages_distinct (pres : SPDXPresenter) :
  size (packages pres).1
    = length (remove_dups (packageID <$> pkg.Enumerate (catalog pres))).
Proof.
  rewrite <-size_dom, packages_dom.
  replace (list_to_set (packageID <$> pkg.Enumerate (catalog pres)) : gset string)
    with (list_to_set (remove_dups (packageID <$> pkg.Enumerate (catalog pres)))
            : gset string).
  - apply size_list_to_set, NoDup_remove_dups.
  - apply set_eq. intros i.
    by rewrite !elem_of_list_to_set, elem_of_remove_dups.
Qed.

(** C10. The package records and the file records are kept in maps keyed
    by identifier, so the output has one record for each distinct
    identifier and no two records under one identifier. When the catalog
    enumerates [p] and later [q] of the same type and name (and no package
    with that identifier after [q]), the map holds the record of [q] under
    their common identifier, the record of [p] is gone, and the map has
    fewer records than the catalog has packages. When a package owns a path
    twice, its file map holds a single record for that path and has fewer
    records than the package owns paths. *)
Theorem later_record_replaces_earlier :
  (∀ pres,
     NoDup (map_to_list (packages pres).1).*1
     ∧ size (packages pres).1
         = length (remove_dups (packageID <$> pkg.Enumerate (catalog pres))))
  ∧ (∀ pres l1 p l2 q l3,
       pkg.Enumerate (catalog pres) = l1 ++ p :: l2 ++ q :: l3
       → pkg.PkgType p = pkg.PkgType q
       → pkg.Name p = pkg.Name q
       → (∀ r, r ∈ l3 → packageID r ≠ packageID q)
       → packageID p = packageID q
         ∧ (packages pres).1 !! packageID p = Some (packageRecord q)
         ∧ size (packages pres).1 < length (pkg.Enumerate (catalog pres)))
  ∧ (∀ p owner k1 f k2 k3,
       pkg.asFileOwner (pkg.Metadata_ p) = Some owner
       → pkg.OwnedFiles owner = k1 ++ f :: k2 ++ f :: k3
       → NoDup (map_to_list (spdx.Files (packageRecord p))).*1
         ∧ spdx.Files (packageRecord p) !! f = Some (file2_2 f)
         ∧ size (spdx.Files (packageRecord p)) < length (pkg.OwnedFiles owner)).
Proof.
  split; [|split].
  - intros pres. split; [apply NoDup_fst_map_to_list | apply packages_distinct].
  - intros pres l1 p l2 q l3 Henum Htype Hname Hlast.
    assert (packageID p = packageID q) as Hid
      by (unfold packageID; by rewrite Htype, Hname).
    split; [done|]. split.
    + rewrite packages_lookup, Henum, Hid.
      replace (l1 ++ p :: l2 ++ q :: l3) with ((l1 ++ p :: l2) ++ q :: l3)
        by (by rewrite <-(assoc_L (++))).
      by rewrite lastWithID_final.
    + rewrite packages_distinct, Henum.
      rewrite <-(length_fmap packageID). apply remove_dups_shorter.
      rewrite !fmap_app, !fmap_cons, !fmap_app, !fmap_cons, Hid.
      apply twice_not_NoDup.
  - intros p owner k1 f k2 k3 Howner Howned.
    destruct (packageRecord_files p) as [_ ->]. unfold packageFiles.
    rewrite Howner. cbn [snd]. split; [apply NoDup_fst_map_to_list|]. split.
    + rewrite addFiles_lookup, decide_True; [done|].
      rewrite Howned. apply elem_of_app. right. by left.
    + rewrite addFiles_distinct. apply remove_dups_shorter.
      rewrite Howned. apply twice_not_NoDup.
Qed.

(** ** Further properties of the projection *)

(** *** Records and their keys *)

(** X1. Every record of the output map is stored under its own SPDX
    identifier, and it is the record built for an enumerated package with
    that identifier: its name and version are those of that package. The
    map holds no record that does not come from the catalog. *)
Theorem package_record_keyed_by_identifier (pres : SPDXPresenter) (i : string)
    (r : spdx.Package2_2) (Hr : (packages pres).1 !! i = Some r) :
  spdx.PackageSPDXIdentifier r = i
  ∧ ∃ p, p ∈ pkg.Enumerate (catalog pres)
      ∧ packageID p = i
      ∧ r = packageRecord p
      ∧ spdx.PackageName r = pkg.Name p
      ∧ spdx.PackageVersion r = pkg.Version p.
Proof.
  rewrite packages_lookup in Hr.
  destruct (lastWithID i _) as [p|] eqn:Hlast; [|done].
  injection Hr as <-. apply lastWithID_Some in Hlast as [Hin Hid].
  split; [by rewrite packageRecord_identifier|].
  exists p. repeat split; try done; unfold packageRecord; by destruct (packageFiles p).
Qed.

(** X2. Every file record of a package record is stored under the path it
    names, that path is one the package owns, and the record depends on
    the path alone: another package owning the same path carries an equal
    file record. *)
Theorem file_record_keyed_by_path (p : pkg.Package) (f : string) (r : spdx.File2_2)
    (Hr : spdx.Files (packageRecord p) !! f = Some r) :
  spdx.FileSPDXIdentifier r = f
  ∧ spdx.FileName r = f
  ∧ (∃ owner, pkg.asFileOwner (pkg.Metadata_ p) = Some owner
       ∧ f ∈ pkg.OwnedFiles owner)
  ∧ ∀ q r', spdx.Files (packageRecord q) !! f = Some r' → r' = r.
Proof.
  assert (∀ q r', spdx.Files (packageRecord q) !! f = Some r' →
            r' = file2_2 f
            ∧ ∃ owner, pkg.asFileOwner (pkg.Metadata_ q) = Some owner
                ∧ f ∈ pkg.OwnedFiles owner) as Hshape.
  { intros q r'. destruct (packageRecord_files q) as [_ ->]. unfold packageFiles.
    destruct (pkg.asFileOwner (pkg.Metadata_ q)) as [owner|]; cbn [snd];
      [|by rewrite lookup_empty].
    rewrite addFiles_lookup.
    destruct (decide (f ∈ pkg.OwnedFiles owner)) as [Hin|_];
      [|by rewrite lookup_empty].
    intros [= <-]. split; [done|]. by exists owner. }
  destruct (Hshape p r Hr) as [-> Howner].
  repeat split; try done.
  intros q r' Hr'. by destruct (Hshape q r' Hr') as [-> _].
Qed.

(** *** Catalogs without colliding identifiers *)

Lemma lastWithID_distinct (l : list pkg.Package) (p : pkg.Package) :
  NoDup (packageID <$> l) → p ∈ l → lastWithID (packageID p) l = Some p.
Proof.
  intros Hnodup Hin. apply list_elem_of_split in Hin as (l1 & l2 & ->).
  apply lastWithID_final. intros r Hr Hid.
  rewrite fmap_app, fmap_cons in Hnodup.
  apply NoDup_app in Hnodup as (_ & _ & Hnodup).
  apply NoDup_cons in Hnodup as [Hnotin _].
  apply Hnotin. rewrite <-Hid. by apply list_elem_of_fmap_2.
Qed.

(** X3. The output map never has more records than the catalog has
    packages, and it has as many exactly when the identifiers of the
    enumerated packages are pairwise distinct. *)
Theorem packages_size_iff_distinct (pres : SPDXPresenter) :
  size (packages pres).1 ≤ length (pkg.Enumerate (catalog pres))
  ∧ (size (packages pres).1 = length (pkg.Enumerate (catalog pres))
       ↔ NoDup (packageID <$> pkg.Enumerate (catalog pres))).
Proof.
  rewrite packages_distinct, <-(length_fmap packageID (pkg.Enumerate (catalog pres))).
  split; [apply remove_dups_length_le | apply remove_dups_length_NoDup].
Qed.

(** X4. When the identifiers of the enumerated packages are pairwise
    distinct, every enumerated package finds its own record in the output
    map under its identifier: nothing is replaced. *)
Theorem distinct_identifiers_keep_every_record (pres : SPDXPresenter)
    (p : pkg.Package)
    (Hnodup : NoDup (packageID <$> pkg.Enumerate (catalog pres)))
    (Hp : p ∈ pkg.Enumerate (catalog pres)) :
  (packages pres).1 !! packageID p = Some (packageRecord p).
Proof. by rewrite packages_lookup, lastWithID_distinct. Qed.

Lemma packagesLoop_logged_Permutation (l1 l2 : list pkg.Package) :
  l1 ≡ₚ l2 →
  concat (map (λ p, (packageLicense p).2) l1)
    ≡ₚ concat (map (λ p, (packageLicense p).2) l2).
Proof.
  induction 1 as [|p l1 l2 _ IH|p q l|l1 l2 l3 _ IH1 _ IH2]; cbn [map concat].
  - done.
  - by rewrite IH.
  - rewrite !(assoc_L (++)). f_equiv. apply Permutation_app_comm.
  - by etrans.
Qed.

(** X5. When the identifiers are pairwise distinct, the order in which the
    catalog enumerates its packages does not matter: two presenters whose
    enumerations are permutations of one another, over the same source
    metadata, assemble the same document and log the same warnings up to
    their order. *)
Theorem enumeration_order_irrelevant_when_distinct (pres1 pres2 : SPDXPresenter)
    (now : Time)
    (Hperm : pkg.Enumerate (catalog pres1) ≡ₚ pkg.Enumerate (catalog pres2))
    (Hnodup : NoDup (packageID <$> pkg.Enumerate (catalog pres1)))
    (Hsrc : srcMetadata pres1 = srcMetadata pres2) :
  (packages pres1).1 = (packages pres2).1
  ∧ document pres1 now = document pres2 now
  ∧ (packages pres1).2 ≡ₚ (packages pres2).2.
Proof.
  assert (NoDup (packageID <$> pkg.Enumerate (catalog pres2))) as Hnodup2
    by by rewrite <-Hperm.
  assert ((packages pres1).1 = (packages pres2).1) as Hmaps.
  { apply map_eq. intros i. rewrite !packages_lookup.
    destruct (lastWithID i (pkg.Enumerate (catalog pres1))) as [p|] eqn:H1.
    - apply lastWithID_Some in H1 as [Hin <-].
      rewrite Hperm in Hin. by rewrite lastWithID_distinct.
    - destruct (lastWithID i (pkg.Enumerate (catalog pres2))) as [q|] eqn:H2; [|done].
      apply lastWithID_Some in H2 as [Hin <-]. rewrite <-Hperm in Hin.
      by rewrite lastWithID_distinct in H1. }
  split; [done|]. split.
  - unfold document. by rewrite Hmaps, Hsrc.
  - unfold packages. rewrite !packagesLoop_logged. cbn [app].
    by apply packagesLoop_logged_Permutation.
Qed.

(** *** Owned paths *)

(** X6. The file records of a package depend only on which paths it owns,
    not on their order nor on how often a path is listed: two file owners
    with the same set of owned paths get equal file maps. *)
Theorem files_depend_on_path_set (p q : pkg.Package) (ownerp ownerq : pkg.FileOwner)
    (Hp : pkg.asFileOwner (pkg.Metadata_ p) = Some ownerp)
    (Hq : pkg.asFileOwner (pkg.Metadata_ q) = Some ownerq)
    (Hset : ∀ f, f ∈ pkg.OwnedFiles ownerp ↔ f ∈ pkg.OwnedFiles ownerq) :
  spdx.Files (packageRecord p) = spdx.Files (packageRecord q).
Proof.
  destruct (packageRecord_files p) as [_ ->], (packageRecord_files q) as [_ ->].
  unfold packageFiles. rewrite Hp, Hq. cbn [snd].
  apply map_eq. intros f. rewrite !addFiles_lookup.
  destruct (decide (f ∈ pkg.OwnedFiles ownerp)) as [Hin|Hin];
    destruct (decide (f ∈ pkg.OwnedFiles ownerq)) as [Hin'|Hin']; try done.
  - by apply Hset in Hin.
  - by apply Hset in Hin'.
Qed.

(** X7. A package record has no file record exactly when the package is
    not a file owner or owns no path. *)
Theorem no_file_record_iff_nothing_owned (p : pkg.Package) :
  spdx.Files (packageRecord p) = ∅
  ↔ match pkg.asFileOwner (pkg.Metadata_ p) with
    | Some owner => pkg.OwnedFiles owner = []
    | None => True
    end.
Proof.
  destruct (packageRecord_files p) as [_ ->]. unfold packageFiles.
  destruct (pkg.asFileOwner (pkg.Metadata_ p)) as [owner|]; cbn [snd]; [|done].
  split.
  - intros Hempty. destruct (pkg.OwnedFiles owner) as [|f owned]; [done|].
    apply (f_equal (λ m, m !! f)) in Hempty.
    rewrite addFiles_lookup, lookup_empty, decide_True in Hempty; [done|by left].
  - by intros ->.
Qed.

(** *** The log *)

Lemma packageLicense_warning_iff (p : pkg.Package) (e : log.Entry) :
  e ∈ (packageLicense p).2
  ↔ ∃ l0 rest err,
      pkg.Licenses p = l0 :: rest ∧ License l0 = Err err
      ∧ e = log.Warnf "unable to parse SPDX license for package=%+v : %+v" p err.
Proof.
  unfold packageLicense. destruct (pkg.Licenses p) as [|l0 rest]; cbn [snd].
  - split; [by intros ?%elem_of_nil | by intros (? & ? & ? & ? & _)].
  - destruct (License l0) as [info|err] eqn:Hlookup; cbn [snd].
    + split; [by intros ?%elem_of_nil|].
      intros (? & ? & ? & [= <- _] & Herr & _). by rewrite Hlookup in Herr.
    + rewrite list_elem_of_singleton. split.
      * intros ->. by exists l0, rest, err.
      * intros (? & ? & ? & [= <- _] & Herr & ->).
        rewrite Hlookup in Herr. by injection Herr as ->.
Qed.

Lemma packageLicense_warning_package (p : pkg.Package) (l : list pkg.Package)
    (k : list log.Entry) :
  log.package <$> k `sublist_of` l →
  log.package <$> ((packageLicense p).2 ++ k) `sublist_of` p :: l.
Proof.
  intros Hk. unfold packageLicense.
  destruct (pkg.Licenses p) as [|l0 rest]; cbn [snd app]; [by constructor|].
  destruct (License l0); cbn [snd app fmap list_fmap log.package];
    by constructor.
Qed.

(** X8. The warnings a run logs are exactly those of the enumerated
    packages whose first license string the lookup rejects, each naming
    its package and the lookup's error. They come in enumeration order, at
    most one for each enumerated package, also for a package whose record
    a later package replaces. *)
Theorem warnings_follow_failed_lookups (pres : SPDXPresenter) (now : Time)
    (output : Writer) :
  (∀ e, e ∈ logged (Present pres now output)
      ↔ ∃ p l0 rest err,
          p ∈ pkg.Enumerate (catalog pres)
          ∧ pkg.Licenses p = l0 :: rest ∧ License l0 = Err err
          ∧ e = log.Warnf "unable to parse SPDX license for package=%+v : %+v" p err)
  ∧ log.package <$> logged (Present pres now output)
      `sublist_of` pkg.Enumerate (catalog pres)
  ∧ length (logged (Present pres now output))
      ≤ length (pkg.Enumerate (catalog pres)).
Proof.
  assert (logged (Present pres now output)
            = concat (map (λ p, (packageLicense p).2) (pkg.Enumerate (catalog pres))))
    as ->.
  { unfold Present. destruct (Save2_2 _ output). cbn [logged].
    unfold packages. by rewrite packagesLoop_logged. }
  assert (log.package <$> concat (map (λ p, (packageLicense p).2)
                                    (pkg.Enumerate (catalog pres)))
            `sublist_of` pkg.Enumerate (catalog pres)) as Hsub.
  { induction (pkg.Enumerate (catalog pres)) as [|p l IH]; [constructor|].
    cbn [map concat]. by apply packageLicense_warning_package. }
  split; [|split; [done|]].
  - intros e. rewrite list_elem_of_In, in_concat. split.
    + intros (k & Hk & He). apply in_map_iff in Hk as (p & <- & Hp).
      apply list_elem_of_In, packageLicense_warning_iff in He
        as (l0 & rest & err & ? & ? & ?).
      exists p, l0, rest, err. by rewrite list_elem_of_In.
    + intros (p & l0 & rest & err & Hp & Hlic & Hlookup & ->).
      exists (packageLicense p).2. split.
      * apply (in_map (λ q, (packageLicense q).2)). by apply list_elem_of_In.
      * apply list_elem_of_In, packageLicense_warning_iff. by exists l0, rest, err.
  - apply sublist_length in Hsub. by rewrite length_fmap in Hsub.
Qed.

(** *** Catalogs put together *)

(** X9. Presenting the enumeration of one catalog followed by that of
    another gives the union of the two output maps in which the records of
    the second catalog take precedence, and the log of the first followed
    by the log of the second. *)
Theorem packages_of_appended_catalogs (pres1 pres2 pres12 : SPDXPresenter)
    (Happ : pkg.Enumerate (catalog pres12)
              = pkg.Enumerate (catalog pres1) ++ pkg.Enumerate (catalog pres2)) :
  (packages pres12).1 = (packages pres2).1 ∪ (packages pres1).1
  ∧ (packages pres12).2 = (packages pres1).2 ++ (packages pres2).2.
Proof.
  split.
  - apply map_eq. intros i. rewrite lookup_union, !packages_lookup, Happ.
    unfold lastWithID. rewrite filter_app, last_app.
    by destruct (last (filter _ (pkg.Enumerate (catalog pres2)))),
         (last (filter _ (pkg.Enumerate (catalog pres1)))).
  - unfold packages. rewrite !packagesLoop_logged, Happ. cbn [app].
    by rewrite map_app, concat_app.
Qed.

(** *** Identifiers *)

(** X10. When the type tags of two packages contain no hyphen, the
    packages get the same identifier only if they have the same type and
    the same name. *)
Theorem packageID_injective_without_hyphen (p q : pkg.Package)
    (Hp : hyphenFree (pkg.PkgType p) = true)
    (Hq : hyphenFree (pkg.PkgType q) = true)
    (Hid : packageID p = packageID q) :
  pkg.PkgType p = pkg.PkgType q ∧ pkg.Name p = pkg.Name q.
Proof.
  unfold packageID in Hid. apply (inj (String.append "Package-")) in Hid.
  by apply hyphen_split_unique.
Qed.

(** X11. A hyphen in a type tag makes the identifier ambiguous: a package
    of type [t-x] and name [n] and a package of type [t] and name [x-n]
    get the same identifier, although they differ in type and in name. *)
Theorem packageID_hyphen_ambiguity (p q : pkg.Package) (x : string)
    (Htype : pkg.PkgType p = pkg.PkgType q +:+ "-" +:+ x)
    (Hname : pkg.Name q = x +:+ "-" +:+ pkg.Name p) :
  packageID p = packageID q
  ∧ pkg.PkgType p ≠ pkg.PkgType q
  ∧ pkg.Name p ≠ pkg.Name q.
Proof.
  split; [|split].
  - unfold packageID. rewrite Htype, Hname. f_equal.
    by rewrite !append_assoc.
  - rewrite Htype. intros Heq.
    apply (f_equal String.length) in Heq.
    rewrite !length_append in Heq. cbn [String.length] in Heq. lia.
  - rewrite Hname. intros Heq.
    apply (f_equal String.length) in Heq.
    rewrite !length_append in Heq. cbn [String.length] in Heq. lia.
Qed.

(** *** The envelope *)

(** X12. The document name is the user input of the source metadata and
    the namespace is the fixed address followed by it. Nothing else enters
    the namespace: two documents have the same namespace exactly when
    their user inputs are equal, whatever their catalogs and the clock. *)
Theorem namespace_follows_user_input (pres1 pres2 : SPDXPresenter)
    (now1 now2 : Time) :
  let userInput pres :=
    source.UserInput (source.ImageMetadata (srcMetadata pres)) in
  spdx.DocumentName (spdx.CreationInfo (document pres1 now1)) = userInput pres1
  ∧ spdx.DocumentNamespace (spdx.CreationInfo (document pres1 now1))
    = "https://anchore.com/syft/image/" +:+ userInput pres1
  ∧ (spdx.DocumentNamespace (spdx.CreationInfo (document pres1 now1))
       = spdx.DocumentNamespace (spdx.CreationInfo (document pres2 now2))
     ↔ userInput pres1 = userInput pres2).
Proof.
  intros userInput. split; [done|]. split; [done|].
  cbn [document spdx.CreationInfo spdx.DocumentNamespace]. split.
  - apply (inj (String.append "https://anchore.com/syft/image/")).
  - unfold userInput. by intros ->.
Qed.

(** X13. The document has no package record exactly when the catalog
    enumerates no package. *)
Theorem no_package_record_iff_empty_catalog (pres : SPDXPresenter) (now : Time) :
  spdx.Packages (document pres now) = ∅ ↔ pkg.Enumerate (catalog pres) = [].
Proof.
  cbn [document spdx.Packages]. split.
  - intros Hempty. destruct (pkg.Enumerate (catalog pres)) as [|p l] eqn:Henum; [done|].
    assert (p ∈ pkg.Enumerate (catalog pres)) as Hin by (rewrite Henum; by left).
    apply lastWithID_elem_of in Hin as [q Hq].
    apply (f_equal (λ m, m !! packageID p)) in Hempty.
    by rewrite packages_lookup, Hq, lookup_empty in Hempty.
  - intros Henum. unfold packages. by rewrite Henum.
Qed.

End Presenter.

(** ** The definitions at work *)

(** A package without license strings: declared license "NONE", download
    location "NOASSERTION", no files analyzed, no file record. *)
Example curl_without_license :
  let r := packageRecord Samples.License Samples.curl in
  spdx.PackageSPDXIdentifier r = "Package-deb-curl"
  ∧ spdx.PackageLicenseDeclared r = "NONE"
  ∧ spdx.PackageDownloadLocation r = "NOASSERTION"
  ∧ spdx.FilesAnalyzed r = false
  ∧ spdx.Files r = ∅.
Proof. by vm_compute. Qed.

(** Only the first license string counts. *)
Example curl_first_license_only :
  spdx.PackageLicenseDeclared (packageRecord Samples.License Samples.curlMIT) = "MIT"
  ∧ spdx.PackageLicenseDeclared (packageRecord Samples.License Samples.curlBogus)
    = "NOASSERTION"
  ∧ spdx.PackageLicenseDeclared (packageRecord Samples.License Samples.curlFiles)
    = "Apache-2.0".
Proof. by vm_compute. Qed.

(** Two owned files give two file records, keyed by the paths. *)
Example curl_two_files :
  let r := packageRecord Samples.License Samples.curlFiles in
  spdx.FilesAnalyzed r = true
  ∧ (map_to_list (spdx.Files r)).*1 ≡ₚ ["/usr/bin/curl"; "/etc/curl.conf"].
Proof.
  split; [by vm_compute|].
  vm_compute. apply Permutation_swap || reflexivity.
Qed.

(** A file owner that owns nothing: files analyzed, no file record. *)
Example owner_of_no_file :
  let r := packageRecord Samples.License Samples.noFiles in
  spdx.FilesAnalyzed r = true ∧ spdx.Files r = ∅.
Proof. by vm_compute. Qed.

(** The empty catalog gives a document with no package record. *)
Example empty_catalog :
  spdx.Packages
    (document Samples.License Samples.ApplicationName Samples.FromBuild nat
       Samples.Format Samples.emptyPres 0) = ∅.
Proof. by vm_compute. Qed.

(** An unresolvable license does not fail the run: one warning, no error;
    a closed sink does. *)
Example bogus_license_run :
  let run := Present Samples.License Samples.ApplicationName Samples.FromBuild nat
               Samples.Format Samples.Writer Samples.Save2_2 Samples.pres 3725 in
  returned _ (run (Samples.OpenSink [])) = None
  ∧ log.package <$> logged _ (run (Samples.OpenSink [])) = [Samples.curlBogus]
  ∧ returned _ (run Samples.ClosedSink)
    = Some (errorString "write on closed sink").
Proof. by vm_compute. Qed.

(** With colliding identifiers the output depends on the order in which
    the catalog enumerates its packages. *)
Example enumeration_order_matters :
  (packages Samples.License Samples.presForward).1
    ≠ (packages Samples.License Samples.presBackward).1.
Proof.
  intros Heq.
  apply (f_equal (λ m, spdx.PackageVersion <$> m !! "Package-deb-curl")) in Heq.
  vm_compute in Heq. discriminate Heq.
Qed.

(** ** Instances of the theorems *)

Lemma declared_license_three_way_witness :
  Samples.curlBogus ∈ pkg.Enumerate (catalog Samples.pres)
  ∧ classifiedAs Samples.License Samples.curlBogus
      (spdx.PackageLicenseDeclared (packageRecord Samples.License Samples.curlBogus))
  ∧ (∀ declared, classifiedAs Samples.License Samples.curlBogus declared
       → declared
         = spdx.PackageLicenseDeclared (packageRecord Samples.License Samples.curlBogus))
  ∧ ∃ q, q ∈ pkg.Enumerate (catalog Samples.pres)
      ∧ (packages Samples.License Samples.pres).1 !! packageID Samples.curlBogus
        = Some (packageRecord Samples.License q)
      ∧ classifiedAs Samples.License q
          (spdx.PackageLicenseDeclared (packageRecord Samples.License q)).
Proof.
  assert (Samples.curlBogus ∈ pkg.Enumerate (catalog Samples.pres)) as Hin
    by (cbn; repeat constructor).
  split; [exact Hin|].
  exact (declared_license_three_way Samples.License Samples.pres Samples.curlBogus Hin).
Defined.

Lemma file_record_fields_witness :
  ∃ r, spdx.Files (packageRecord Samples.License Samples.curlFiles) !! "/etc/curl.conf"
       = Some r
    ∧ spdx.FileSPDXIdentifier r = "/etc/curl.conf"
    ∧ spdx.FileName r = "/etc/curl.conf"
    ∧ spdx.LicenseConcluded r = "NOASSERTION"
    ∧ spdx.LicenseInfoInFile r = ["NOASSERTION"]
    ∧ spdx.FileCopyrightText r = "NOASSERTION"
    ∧ spdx.FileChecksumSHA1 r = ""
    ∧ spdx.FileChecksumSHA256 r = ""
    ∧ spdx.FileChecksumMD5 r = ""
    ∧ spdx.FileType r = []
    ∧ spdx.LicenseComments r = ""
    ∧ spdx.ArtifactOfProjects r = []
    ∧ spdx.FileComment r = ""
    ∧ spdx.FileNotice r = ""
    ∧ spdx.FileContributor r = []
    ∧ spdx.FileAttributionTexts r = []
    ∧ spdx.FileDependencies r = []
    ∧ spdx.Snippets r = ∅.
Proof.
  apply (file_record_fields Samples.License Samples.curlFiles
           {| pkg.OwnedFiles := ["/usr/bin/curl"; "/etc/curl.conf"] |}
           "/etc/curl.conf").
  - reflexivity.
  - cbn. repeat constructor.
Defined.

Lemma package_identifier_type_name_witness :
  pkg.Version Samples.curlMIT ≠ pkg.Version Samples.curlBogus
  ∧ spdx.PackageSPDXIdentifier (packageRecord Samples.License Samples.curlMIT)
    = "Package-deb-curl"
  ∧ spdx.PackageSPDXIdentifier (packageRecord Samples.License Samples.curlBogus)
    = spdx.PackageSPDXIdentifier (packageRecord Samples.License Samples.curlMIT)
  ∧ packageID Samples.curlBogus = packageID Samples.curlMIT.
Proof.
  split; [discriminate|].
  exact (package_identifier_type_name Samples.License Samples.curlMIT
           Samples.curlBogus eq_refl eq_refl).
Defined.

Lemma later_record_replaces_earlier_witness :
  ((packages Samples.License Samples.pres).1 !! "Package-deb-curl"
     = Some (packageRecord Samples.License Samples.curlBogus)
   ∧ size (packages Samples.License Samples.pres).1 < 5)
  ∧ (spdx.Files (packageRecord Samples.License Samples.twice) !! "/a.py"
       = Some (file2_2 "/a.py")
     ∧ size (spdx.Files (packageRecord Samples.License Samples.twice)) < 3).
Proof.
  destruct (later_record_replaces_earlier Samples.License) as (_ & Hpkgs & Hfiles).
  split.
  - destruct (Hpkgs Samples.pres [] Samples.curlMIT [Samples.curlFiles]
                Samples.curlBogus [Samples.twice; Samples.noFiles])
      as (_ & Hlookup & Hsize); try reflexivity.
    + intros r Hr. apply elem_of_cons in Hr as [->|Hr]; [discriminate|].
      apply elem_of_cons in Hr as [->|Hr]; [discriminate|].
      by apply elem_of_nil in Hr.
    + split; [exact Hlookup | exact Hsize].
  - destruct (Hfiles Samples.twice
                {| pkg.OwnedFiles := ["/a.py"; "/b.py"; "/a.py"] |}
                [] "/a.py" ["/b.py"] [])
      as (_ & Hlookup & Hsize); try reflexivity.
    split; [exact Hlookup | exact Hsize].
Defined.

(** ** The tool creator is not the bare concatenation *)

(** C5 as stated fails: for the application "syft" at version "0.15.1" the
    tool creator is "syft-0.15.1", not "syft0.15.1". *)
Lemma tool_creator_not_name_then_version :
  spdx.CreatorTools
    (spdx.CreationInfo
       (document Samples.License Samples.ApplicationName Samples.FromBuild nat
          Samples.Format Samples.pres 3725))
    ≠ [Samples.ApplicationName +:+ version.Version Samples.FromBuild].
Proof. vm_compute. discriminate. Qed.

(** ** Instances of the further properties *)

Lemma package_record_keyed_by_identifier_witness :
  (packages Samples.License Samples.pres).1 !! "Package-deb-curl"
    = Some (packageRecord Samples.License Samples.curlBogus)
  ∧ spdx.PackageSPDXIdentifier (packageRecord Samples.License Samples.curlBogus)
    = "Package-deb-curl"
  ∧ ∃ p, p ∈ pkg.Enumerate (catalog Samples.pres)
      ∧ packageID p = "Package-deb-curl"
      ∧ packageRecord Samples.License Samples.curlBogus
        = packageRecord Samples.License p
      ∧ spdx.PackageName (packageRecord Samples.License Samples.curlBogus)
        = pkg.Name p
      ∧ spdx.PackageVersion (packageRecord Samples.License Samples.curlBogus)
        = pkg.Version p.
Proof.
  assert ((packages Samples.License Samples.pres).1 !! "Package-deb-curl"
            = Some (packageRecord Samples.License Samples.curlBogus)) as Hr
    by (vm_compute; reflexivity).
  split; [exact Hr|].
  exact (package_record_keyed_by_identifier Samples.License Samples.pres _ _ Hr).
Defined.

Lemma file_record_keyed_by_path_witness :
  spdx.Files (packageRecord Samples.License Samples.curlFiles) !! "/etc/curl.conf"
    = Some (file2_2 "/etc/curl.conf")
  ∧ spdx.FileSPDXIdentifier (file2_2 "/etc/curl.conf") = "/etc/curl.conf"
  ∧ spdx.FileName (file2_2 "/etc/curl.conf") = "/etc/curl.conf"
  ∧ (∃ owner, pkg.asFileOwner (pkg.Metadata_ Samples.curlFiles) = Some owner
       ∧ "/etc/curl.conf" ∈ pkg.OwnedFiles owner)
  ∧ ∀ q r', spdx.Files (packageRecord Samples.License q) !! "/etc/curl.conf" = Some r'
      → r' = file2_2 "/etc/curl.conf".
Proof.
  assert (spdx.Files (packageRecord Samples.License Samples.curlFiles)
            !! "/etc/curl.conf" = Some (file2_2 "/etc/curl.conf")) as Hr
    by (vm_compute; reflexivity).
  split; [exact Hr|].
  exact (file_record_keyed_by_path Samples.License Samples.curlFiles _ _ Hr).
Defined.

Lemma distinct_identifiers_keep_every_record_witness :
  (packages Samples.License Samples.presDistinct).1 !! packageID Samples.curlFiles
    = Some (packageRecord Samples.License Samples.curlFiles).
Proof.
  apply distinct_identifiers_keep_every_record.
  - apply (bool_decide_unpack _). vm_compute. exact I.
  - cbn. repeat constructor.
Defined.

Lemma enumeration_order_irrelevant_when_distinct_witness :
  pkg.Enumerate (catalog Samples.presDistinct)
    ≠ pkg.Enumerate (catalog Samples.presDistinctShuffled)
  ∧ (packages Samples.License Samples.presDistinct).1
    = (packages Samples.License Samples.presDistinctShuffled).1
  ∧ document Samples.License Samples.ApplicationName Samples.FromBuild nat
      Samples.Format Samples.presDistinct 3725
    = document Samples.License Samples.ApplicationName Samples.FromBuild nat
        Samples.Format Samples.presDistinctShuffled 3725
  ∧ (packages Samples.License Samples.presDistinct).2
    ≡ₚ (packages Samples.License Samples.presDistinctShuffled).2.
Proof.
  split; [discriminate|].
  apply enumeration_order_irrelevant_when_distinct.
  - cbn. symmetry.
    apply (Permutation_cons_append [Samples.curlBogus; Samples.curlFiles] Samples.twice).
  - apply (bool_decide_unpack _). vm_compute. exact I.
  - reflexivity.
Defined.

Lemma files_depend_on_path_set_witness :
  pkg.Metadata_ Samples.twice ≠ pkg.Metadata_ Samples.once
  ∧ spdx.Files (packageRecord Samples.License Samples.twice)
    = spdx.Files (packageRecord Samples.License Samples.once).
Proof.
  split; [discriminate|].
  apply (files_depend_on_path_set Samples.License Samples.twice Samples.once
           {| pkg.OwnedFiles := ["/a.py"; "/b.py"; "/a.py"] |}
           {| pkg.OwnedFiles := ["/b.py"; "/a.py"] |}); [reflexivity..|].
  intros f. cbn. rewrite !elem_of_cons, !elem_of_nil. tauto.
Defined.

Lemma packages_of_appended_catalogs_witness :
  (packages Samples.License Samples.pres).1
    = (packages Samples.License Samples.presTail).1
        ∪ (packages Samples.License Samples.presHead).1
  ∧ (packages Samples.License Samples.pres).2
    = (packages Samples.License Samples.presHead).2
        ++ (packages Samples.License Samples.presTail).2.
Proof.
  apply (packages_of_appended_catalogs Samples.License Samples.presHead
           Samples.presTail Samples.pres).
  reflexivity.
Defined.

Lemma packageID_injective_without_hyphen_witness :
  pkg.Version Samples.curlMIT ≠ pkg.Version Samples.curlBogus
  ∧ pkg.PkgType Samples.curlMIT = pkg.PkgType Samples.curlBogus
  ∧ pkg.Name Samples.curlMIT = pkg.Name Samples.curlBogus.
Proof.
  split; [discriminate|].
  apply packageID_injective_without_hyphen; reflexivity.
Defined.

Lemma packageID_hyphen_ambiguity_witness :
  packageID Samples.archiveFoo = packageID Samples.javaArchiveFoo
  ∧ pkg.PkgType Samples.archiveFoo ≠ pkg.PkgType Samples.javaArchiveFoo
  ∧ pkg.Name Samples.archiveFoo ≠ pkg.Name Samples.javaArchiveFoo.
Proof.
  apply (packageID_hyphen_ambiguity Samples.archiveFoo Samples.javaArchiveFoo
           "archive"); reflexivity.
Defined.
